(** * cdk-s3-distribution-template: the DistributionStack topology

    A shallow embedding of [lib/cdk-s3-distribution-stack.ts] (class
    [DistributionStack]) and of the entry point [bin/distribution.ts].

    The source is a sequence of construct declarations against a
    provisioning toolkit.  Every [new X(this, id, props)] is embedded as
    the registration of a child under the stack, in declaration order,
    together with the checks the toolkit's constructors make and the
    errors they throw: a construct id already taken in its scope, a
    context lookup on a stack whose environment names no account or no
    region, a malformed bucket or stack name, a distribution without
    exactly one default behavior.  An exception leaves the stack as it
    was when thrown.  The property objects are records that carry the
    fields the source writes.  What the toolkit builds below the
    children of the stack (policies, helper functions, the synthesized
    template) is outside the embedding. *)

From Stdlib Require Import String Ascii List ZArith Bool Arith.
Import ListNotations.
Open Scope string_scope.
Open Scope Z_scope.

Set Implicit Arguments.

(** ** Toolkit vocabulary used by the source *)

(** A construct is referred to by the id it was registered under. *)
Definition ConstructRef := string.

(** A property value: a literal, or an attribute of a declared construct
    resolved by the toolkit ([certificate.certificateArn],
    [cloudFrontDistribution.distributionId]). *)
Inductive Token : Type :=
| Literal (s : string)
| GetAtt (node : ConstructRef) (attribute : string).

Inductive ViewerProtocolPolicy := HTTPS_ONLY | REDIRECT_TO_HTTPS | ALLOW_ALL.
Inductive HttpVersion := HTTP1_1 | HTTP2.
Inductive PriceClass := PRICE_CLASS_100 | PRICE_CLASS_200 | PRICE_CLASS_ALL.
Inductive SecurityPolicyProtocol :=
  SSL_V3 | TLS_V1 | TLS_V1_2016 | TLS_V1_1_2016 | TLS_V1_2_2018.
Inductive SSLMethod := SNI | VIP.
Inductive CloudFrontAllowedMethods := GET_HEAD | GET_HEAD_OPTIONS | ALL.

Inductive ComparisonOperator :=
| GREATER_THAN_OR_EQUAL_TO_THRESHOLD
| GREATER_THAN_THRESHOLD
| LESS_THAN_THRESHOLD
| LESS_THAN_OR_EQUAL_TO_THRESHOLD.

(** The four treatments of missing data points the toolkit offers:
    count them as breaching, count them as within the threshold, keep
    the current alarm state, or leave them out of the evaluation. *)
Inductive TreatMissingData := BREACHING | NOT_BREACHING | IGNORE | MISSING.

Inductive Unit :=
| SECONDS | MICROSECONDS | MILLISECONDS
| BYTES | KILOBYTES | MEGABYTES | GIGABYTES | TERABYTES
| BITS | KILOBITS | MEGABITS | GIGABITS | TERABITS
| PERCENT | COUNT
| BYTES_PER_SECOND | KILOBYTES_PER_SECOND | MEGABYTES_PER_SECOND
| GIGABYTES_PER_SECOND | TERABYTES_PER_SECOND
| BITS_PER_SECOND | KILOBITS_PER_SECOND | MEGABITS_PER_SECOND
| GIGABITS_PER_SECOND | TERABITS_PER_SECOND
| COUNT_PER_SECOND | NONE.

Module Duration.
Record t := { toSeconds : Z }.
Definition seconds (amount : Z) : t := {| toSeconds := amount |}.
End Duration.

(** ** Property objects, one record per object literal of the source *)

Module Environment.
Record t := { account : option string; region : option string }.
End Environment.

(** [DistributionStackProps extends StackProps]: the two fields the
    interface adds, and the inherited optional environment.  The source
    reads none of the other inherited fields. *)
Module DistributionStackProps.
Record t := {
  env : option Environment.t;
  bucketName : string;
  domainName : string
}.
End DistributionStackProps.

Module BucketProps.
Record t := { bucketName : string }.
End BucketProps.

Module HostedZoneProviderProps.
Record t := { domainName : string; privateZone : bool }.
End HostedZoneProviderProps.

(** [region] is the optional field of the toolkit's certificate
    properties; the source never writes it. *)
Module DnsValidatedCertificateProps.
Record t := {
  domainName : string;
  hostedZone : ConstructRef;
  region : option string
}.
End DnsValidatedCertificateProps.

Module AliasConfiguration.
Record t := {
  acmCertRef : Token;
  names : list string;
  securityPolicy : SecurityPolicyProtocol;
  sslMethod : SSLMethod
}.
End AliasConfiguration.

Module ErrorConfiguration.
Record t := {
  errorCode : Z;
  responseCode : Z;
  responsePagePath : string
}.
End ErrorConfiguration.

Module S3OriginConfig.
Record t := {
  originAccessIdentity : ConstructRef;
  s3BucketSource : ConstructRef
}.
End S3OriginConfig.

Module Cookies.
Record t := { forward : string }.
End Cookies.

Module ForwardedValues.
Record t := { queryString : bool; cookies : Cookies.t }.
End ForwardedValues.

Module Behavior.
Record t := {
  allowedMethods : CloudFrontAllowedMethods;
  compress : bool;
  forwardedValues : ForwardedValues.t;
  isDefaultBehavior : bool
}.
End Behavior.

Module SourceConfiguration.
Record t := {
  s3OriginSource : S3OriginConfig.t;
  behaviors : list Behavior.t
}.
End SourceConfiguration.

Module CloudFrontWebDistributionProps.
Record t := {
  comment : string;
  viewerProtocolPolicy : ViewerProtocolPolicy;
  httpVersion : HttpVersion;
  defaultRootObject : string;
  priceClass : PriceClass;
  aliasConfiguration : AliasConfiguration.t;
  errorConfigurations : list ErrorConfiguration.t;
  originConfigs : list SourceConfiguration.t
}.
End CloudFrontWebDistributionProps.

(** [new Metric({...})] takes no scope: a metric is a plain value, not a
    construct.  [dimensions] is the object literal, keys in source order. *)
Module Metric.
Record t := {
  metricName : string;
  namespace : string;
  period : Duration.t;
  statistic : string;
  unit : Unit;
  dimensions : list (string * Token)
}.
End Metric.

Module AlarmProps.
Record t := {
  alarmDescription : string;
  alarmName : string;
  comparisonOperator : ComparisonOperator;
  evaluationPeriods : Z;
  metric : Metric.t;
  threshold : Z;
  treatMissingData : TreatMissingData
}.
End AlarmProps.

(** ** The construct tree *)

(** The children of a stack.  [AssetParametersC] is the holder the toolkit
    puts directly under a stack for the parameters of its file assets;
    [UnfinishedC] is the node of a construct whose constructor threw after
    registering itself and before declaring its resource. *)
Inductive Construct : Type :=
| BucketC (props : BucketProps.t)
| HostedZoneLookupC (query : HostedZoneProviderProps.t)
| DnsValidatedCertificateC (props : DnsValidatedCertificateProps.t)
| OriginAccessIdentityC
| CloudFrontWebDistributionC (props : CloudFrontWebDistributionProps.t)
| AlarmC (props : AlarmProps.t)
| AssetParametersC
| UnfinishedC.

Inductive ConstructKind :=
| KBucket | KHostedZone | KCertificate
| KAccessIdentity | KDistribution | KAlarm
| KAssetParameters | KUnfinished.

Definition kindOf (c : Construct) : ConstructKind :=
  match c with
  | BucketC _ => KBucket
  | HostedZoneLookupC _ => KHostedZone
  | DnsValidatedCertificateC _ => KCertificate
  | OriginAccessIdentityC => KAccessIdentity
  | CloudFrontWebDistributionC _ => KDistribution
  | AlarmC _ => KAlarm
  | AssetParametersC => KAssetParameters
  | UnfinishedC => KUnfinished
  end.

Definition ConstructKind_eqb (a b : ConstructKind) : bool :=
  match a, b with
  | KBucket, KBucket | KHostedZone, KHostedZone
  | KCertificate, KCertificate | KAccessIdentity, KAccessIdentity
  | KDistribution, KDistribution | KAlarm, KAlarm
  | KAssetParameters, KAssetParameters | KUnfinished, KUnfinished => true
  | _, _ => false
  end.

(** A stack: its id, its environment, and the children registered under
    it, oldest first. *)
Module Stack.
Record t := {
  id : string;
  env : option Environment.t;
  children : list (string * Construct)
}.
End Stack.

(** The scope of a stack: the stacks registered under the app. *)
Definition App := list Stack.t.
Definition App_new : App := [].

(** ** Exceptions *)

(** What the toolkit's constructors throw, each a plain [Error]. *)
Inductive ToolkitError :=
| EmptyConstructId
| DuplicateConstructId (id : string)
| InvalidStackName (name : string)
| InvalidBucketName (name : string)
| EnvironmentNotSpecified
| NotOneDefaultBehavior.

Inductive JsError :=
| TypeError
| Error (e : ToolkitError).

Inductive Completion (A : Type) : Type :=
| Normal (a : A)
| Throw (e : JsError).
Arguments Normal {A} a.
Arguments Throw {A} e.

Definition isNormal {A} (c : Completion A) : bool :=
  match c with
  | Normal _ => true
  | Throw _ => false
  end.

(** ** Construction steps: state passing over [this], with exceptions *)

(** A step either completes with a value or throws; in both cases it
    leaves a stack behind. *)
Definition Build (A : Type) : Type := Stack.t -> Completion A * Stack.t.

Definition ret {A} (a : A) : Build A := fun this => (Normal a, this).

Definition throw {A} (e : ToolkitError) : Build A :=
  fun this => (Throw (Error e), this).

Definition bind {A B} (m : Build A) (k : A -> Build B) : Build B :=
  fun this =>
    match m this with
    | (Normal a, this') => k a this'
    | (Throw e, this') => (Throw e, this')
    end.

Notation "x <- m ;; k" := (bind m (fun x => k))
  (at level 61, m at next level, right associativity).
Notation "m ;;; k" := (bind m (fun _ => k))
  (at level 61, right associativity).

Definition resources (s : Stack.t) : list (string * Construct) :=
  Stack.children s.

Definition hasChild (id : string) (this : Stack.t) : bool :=
  existsb (String.eqb id) (map fst (resources this)).

Definition addChild (id : string) (c : Construct) (this : Stack.t) : Stack.t :=
  {| Stack.id := Stack.id this;
     Stack.env := Stack.env this;
     Stack.children := (Stack.children this ++ [(id, c)])%list |}.

(** [new X(this, id, props)] for a construct whose constructor checks its
    props after [super(scope, id)].  [super] refuses an id already taken
    under [this] and otherwise registers the node; the check runs next,
    and the resource is declared only when it passes. *)
Definition constructChecked (id : string) (failure : option ToolkitError)
  (c : Construct) : Build ConstructRef :=
  fun this =>
    if hasChild id this
    then (Throw (Error (DuplicateConstructId id)), this)
    else match failure with
         | None => (Normal id, addChild id c this)
         | Some e => (Throw (Error e), addChild id UnfinishedC this)
         end.

(** [new X(this, id, props)] for a construct that checks nothing else. *)
Definition construct (id : string) (c : Construct) : Build ConstructRef :=
  constructChecked id None c.

(** ** The checks of the toolkit's constructors *)

Definition isDigit (c : ascii) : bool :=
  (48 <=? nat_of_ascii c)%nat && (nat_of_ascii c <=? 57)%nat.

Definition isLower (c : ascii) : bool :=
  (97 <=? nat_of_ascii c)%nat && (nat_of_ascii c <=? 122)%nat.

Definition isUpper (c : ascii) : bool :=
  (65 <=? nat_of_ascii c)%nat && (nat_of_ascii c <=? 90)%nat.

Definition isDot (c : ascii) : bool := Ascii.eqb c ".".
Definition isDash (c : ascii) : bool := Ascii.eqb c "-".

(** Construct ids may not hold the path separator: it is replaced by two
    dashes. *)
Fixpoint sanitizeId (id : string) : string :=
  match id with
  | EmptyString => EmptyString
  | String c rest =>
      if Ascii.eqb c "/"
      then String "-" (String "-" (sanitizeId rest))
      else String c (sanitizeId rest)
  end.

(** A stack name is a letter followed by letters, digits and dashes. *)
Definition validStackName (name : string) : bool :=
  match name with
  | EmptyString => false
  | String c rest =>
      (isLower c || isUpper c) &&
      forallb (fun d => isLower d || isUpper d || isDigit d || isDash d)
        (list_ascii_of_string rest)
  end.

Fixpoint splitOn (sep : ascii) (l : list ascii) : list (list ascii) :=
  match l with
  | [] => [[]]
  | c :: rest =>
      if Ascii.eqb c sep
      then [] :: splitOn sep rest
      else match splitOn sep rest with
           | part :: parts => (c :: part) :: parts
           | [] => [[c]]
           end
  end.

(** A period next to a dash or to another period. *)
Fixpoint hasConsecutiveSymbols (l : list ascii) : bool :=
  match l with
  | a :: rest =>
      match rest with
      | b :: _ =>
          (isDot a && isDash b) || (isDash a && isDot b) ||
          (isDot a && isDot b) || hasConsecutiveSymbols rest
      | [] => false
      end
  | [] => false
  end.

(** Four groups of one to three digits, separated by periods. *)
Definition resemblesIpAddress (l : list ascii) : bool :=
  match splitOn "." l with
  | [a; b; c; d] =>
      forallb
        (fun part =>
           (1 <=? List.length part)%nat && (List.length part <=? 3)%nat &&
           forallb isDigit part)
        [a; b; c; d]
  | _ => false
  end.

(** The bucket-name rules: 3 to 63 characters out of lowercase letters,
    digits, periods and dashes; a letter or digit first and last; no
    period next to a dash or a period; not shaped like an IP address.  An
    empty name counts as no name and is not checked. *)
Definition validBucketName (name : string) : bool :=
  let l := list_ascii_of_string name in
  match l with
  | [] => true
  | first :: _ =>
      (3 <=? List.length l)%nat && (List.length l <=? 63)%nat &&
      forallb (fun c => isLower c || isDigit c || isDot c || isDash c) l &&
      (isLower first || isDigit first) &&
      (isLower (last l first) || isDigit (last l first)) &&
      negb (hasConsecutiveSymbols l) &&
      negb (resemblesIpAddress l)
  end.

(** A context lookup needs a stack whose environment names both an
    account and a region. *)
Definition envSpecified (env : option Environment.t) : bool :=
  match env with
  | Some e =>
      match Environment.account e, Environment.region e with
      | Some _, Some _ => true
      | _, _ => false
      end
  | None => false
  end.

(** All behaviors of a distribution, across its origin configurations,
    and those among them flagged as the default one. *)
Definition allBehaviors (d : CloudFrontWebDistributionProps.t)
  : list Behavior.t :=
  flat_map SourceConfiguration.behaviors
    (CloudFrontWebDistributionProps.originConfigs d).

Definition defaultBehaviors (d : CloudFrontWebDistributionProps.t)
  : list Behavior.t :=
  filter Behavior.isDefaultBehavior (allBehaviors d).

(** ** The toolkit's constructors, as the source calls them *)

(** [new Bucket(this, id, {bucketName})]. *)
Definition Bucket_new (id : string) (props : BucketProps.t)
  : Build ConstructRef :=
  constructChecked id
    (if validBucketName (BucketProps.bucketName props)
     then None
     else Some (InvalidBucketName (BucketProps.bucketName props)))
    (BucketC props).

(** [HostedZone.fromLookup(this, id, query)]: the environment is checked
    before anything is registered. *)
Definition HostedZone_fromLookup (id : string)
  (query : HostedZoneProviderProps.t) : Build ConstructRef :=
  fun this =>
    if envSpecified (Stack.env this)
    then construct id (HostedZoneLookupC query) this
    else throw EnvironmentNotSpecified this.

(** The holder of asset parameters is created under the stack when the
    first asset is added, and used again afterwards. *)
Fixpoint tryFindChild (id : string) (l : list (string * Construct))
  : option Construct :=
  match l with
  | [] => None
  | (i, c) :: rest => if String.eqb i id then Some c else tryFindChild id rest
  end.

Definition ensureAssetParameters : Build unit :=
  fun this =>
    match tryFindChild "AssetParameters" (resources this) with
    | Some AssetParametersC => (Normal tt, this)
    | Some _ => (Throw (Error (DuplicateConstructId "AssetParameters")), this)
    | None => (Normal tt, addChild "AssetParameters" AssetParametersC this)
    end.

(** [new DnsValidatedCertificate(this, id, props)]: the certificate, and
    the file asset of the function that requests it. *)
Definition DnsValidatedCertificate_new (id : string)
  (props : DnsValidatedCertificateProps.t) : Build ConstructRef :=
  certificate <- construct id (DnsValidatedCertificateC props) ;;
  ensureAssetParameters ;;;
  ret certificate.

Definition OriginAccessIdentity_new (id : string) : Build ConstructRef :=
  construct id OriginAccessIdentityC.

(** [new CloudFrontWebDistribution(this, id, props)]: across all origin
    configurations exactly one behavior has to be the default one. *)
Definition CloudFrontWebDistribution_new (id : string)
  (props : CloudFrontWebDistributionProps.t) : Build ConstructRef :=
  constructChecked id
    (if (List.length (defaultBehaviors props) =? 1)%nat
     then None
     else Some NotOneDefaultBehavior)
    (CloudFrontWebDistributionC props).

Definition Alarm_new (id : string) (props : AlarmProps.t)
  : Build ConstructRef :=
  construct id (AlarmC props).

(** ** The methods of [DistributionStack] *)

(** [lookupHostedZone(domainName, privateZone = false)]: a reference to a
    zone that is assumed to exist, registered as "HostedZone". *)
Definition lookupHostedZone (domainName : string) (privateZone : option bool)
  : Build ConstructRef :=
  let privateZone := match privateZone with Some b => b | None => false end in
  HostedZone_fromLookup "HostedZone"
    {| HostedZoneProviderProps.domainName := domainName;
       HostedZoneProviderProps.privateZone := privateZone |}.

Definition buildAppBucket (bucketName : string) : Build ConstructRef :=
  Bucket_new "AppBucket" {| BucketProps.bucketName := bucketName |}.

(** The source passes [domainName] and [hostedZone] only. *)
Definition buildDistributionCertificate
  (domainName : string) (hostedZone : ConstructRef) : Build ConstructRef :=
  DnsValidatedCertificate_new "DistributionCertificate"
    {| DnsValidatedCertificateProps.domainName := domainName;
       DnsValidatedCertificateProps.hostedZone := hostedZone;
       DnsValidatedCertificateProps.region := None |}.

(** The object literal passed to [new CloudFrontWebDistribution]. *)
Definition distributionProps
  (originAccessIdentity bucketSource : ConstructRef)
  (domainName : string) (certificate : ConstructRef)
  : CloudFrontWebDistributionProps.t :=
  {| CloudFrontWebDistributionProps.comment := "App Distribution";
     CloudFrontWebDistributionProps.viewerProtocolPolicy := REDIRECT_TO_HTTPS;
     CloudFrontWebDistributionProps.httpVersion := HTTP2;
     CloudFrontWebDistributionProps.defaultRootObject := "index.html";
     CloudFrontWebDistributionProps.priceClass := PRICE_CLASS_100;
     CloudFrontWebDistributionProps.aliasConfiguration :=
       {| AliasConfiguration.acmCertRef := GetAtt certificate "certificateArn";
          AliasConfiguration.names := [domainName];
          AliasConfiguration.securityPolicy := TLS_V1_2_2018;
          AliasConfiguration.sslMethod := SNI |};
     CloudFrontWebDistributionProps.errorConfigurations :=
       [ {| ErrorConfiguration.errorCode := 404;
            ErrorConfiguration.responseCode := 200;
            ErrorConfiguration.responsePagePath := "/index.html" |} ];
     CloudFrontWebDistributionProps.originConfigs :=
       [ {| SourceConfiguration.s3OriginSource :=
              {| S3OriginConfig.originAccessIdentity := originAccessIdentity;
                 S3OriginConfig.s3BucketSource := bucketSource |};
            SourceConfiguration.behaviors :=
              [ {| Behavior.allowedMethods := GET_HEAD;
                   Behavior.compress := true;
                   Behavior.forwardedValues :=
                     {| ForwardedValues.queryString := false;
                        ForwardedValues.cookies :=
                          {| Cookies.forward := "none" |} |};
                   Behavior.isDefaultBehavior := false |} ] |} ] |}.

Definition buildCloudFrontDistribution
  (bucketSource : ConstructRef) (domainName : string)
  (certificate : ConstructRef) : Build ConstructRef :=
  originAccessIdentity <- OriginAccessIdentity_new "AppDistributionOAI" ;;
  distribution <-
    CloudFrontWebDistribution_new "AppDistribution"
      (distributionProps originAccessIdentity bucketSource
         domainName certificate) ;;
  ret distribution.

Definition clientHttpErrorMetric (cloudFrontDistribution : ConstructRef)
  : Metric.t :=
  {| Metric.metricName := "4xxErrorRate";
     Metric.namespace := "AWS/CloudFront";
     Metric.period := Duration.seconds 3600;
     Metric.statistic := "Average";
     Metric.unit := COUNT;
     Metric.dimensions :=
       [ ("Region", Literal "Global");
         ("DistributionId", GetAtt cloudFrontDistribution "distributionId") ] |}.

Definition clientHttpErrorAlarm (cloudFrontDistribution : ConstructRef)
  : AlarmProps.t :=
  {| AlarmProps.alarmDescription := "CloudFront4XX Errors";
     AlarmProps.alarmName := "CloudFront4XX";
     AlarmProps.comparisonOperator := GREATER_THAN_THRESHOLD;
     AlarmProps.evaluationPeriods := 1;
     AlarmProps.metric := clientHttpErrorMetric cloudFrontDistribution;
     AlarmProps.threshold := 2;
     AlarmProps.treatMissingData := MISSING |}.

Definition serverHttpErrorMetric (cloudFrontDistribution : ConstructRef)
  : Metric.t :=
  {| Metric.metricName := "5xxErrorRate";
     Metric.namespace := "AWS/CloudFront";
     Metric.period := Duration.seconds 3600;
     Metric.statistic := "Average";
     Metric.unit := COUNT;
     Metric.dimensions :=
       [ ("Region", Literal "Global");
         ("DistributionId", GetAtt cloudFrontDistribution "distributionId") ] |}.

Definition serverHttpErrorAlarm (cloudFrontDistribution : ConstructRef)
  : AlarmProps.t :=
  {| AlarmProps.alarmDescription := "CloudFront5XX Errors";
     AlarmProps.alarmName := "CloudFront5XX";
     AlarmProps.comparisonOperator := GREATER_THAN_THRESHOLD;
     AlarmProps.evaluationPeriods := 1;
     AlarmProps.metric := serverHttpErrorMetric cloudFrontDistribution;
     AlarmProps.threshold := 1;
     AlarmProps.treatMissingData := MISSING |}.

Definition buildAlarms (cloudFrontDistribution : ConstructRef) : Build unit :=
  Alarm_new "ClientHttpErrorAlarm"
    (clientHttpErrorAlarm cloudFrontDistribution) ;;;
  Alarm_new "ServerHttpErrorAlarm"
    (serverHttpErrorAlarm cloudFrontDistribution) ;;;
  ret tt.

(** ** The constructor *)

(** [super(scope, id, props)]: the stack is registered under the app by
    its id, which may not be empty nor taken by another stack of the app,
    and which has to be a stack name; it starts without children.  [props]
    may be left out. *)
Definition Stack_super (scope : App) (id : string)
  (props : option DistributionStackProps.t) : Completion Stack.t :=
  let id := sanitizeId id in
  if String.eqb id ""
  then Throw (Error EmptyConstructId)
  else if existsb (fun s => String.eqb (Stack.id s) id) scope
  then Throw (Error (DuplicateConstructId id))
  else if validStackName id
  then Normal
         {| Stack.id := id;
            Stack.env :=
              match props with
              | Some props => DistributionStackProps.env props
              | None => None
              end;
            Stack.children := [] |}
  else Throw (Error (InvalidStackName id)).

(** The body of the constructor after [super]. *)
Definition constructorBody (props : DistributionStackProps.t) : Build unit :=
  let domainName := DistributionStackProps.domainName props in
  let bucketName := DistributionStackProps.bucketName props in
  bucketSource <- buildAppBucket bucketName ;;
  hostedZone <- lookupHostedZone domainName None ;;
  certificate <- buildDistributionCertificate domainName hostedZone ;;
  distribution <- buildCloudFrontDistribution bucketSource domainName certificate ;;
  buildAlarms distribution.

(** A call of the constructor: how it completes, and the stack it has
    registered under the app, if [super] got that far.  [props] may be
    left out at run time, as the template test does with
    [new ...Stack(app, id)]; the destructuring of [props] then throws a
    TypeError before any construct is declared. *)
Definition DistributionStack_call (scope : App) (id : string)
  (props : option DistributionStackProps.t)
  : Completion unit * option Stack.t :=
  match Stack_super scope id props with
  | Throw e => (Throw e, None)
  | Normal this =>
      match props with
      | None => (Throw TypeError, Some this)
      | Some props =>
          let (completion, this') := constructorBody props this in
          (completion, Some this')
      end
  end.

Definition DistributionStack_new (scope : App) (id : string)
  (props : DistributionStackProps.t) : Completion unit * option Stack.t :=
  DistributionStack_call scope id (Some props).

(** ** The entry point [bin/distribution.ts] *)

Definition BUCKET_NAME := "my-unique-bucket-name".
Definition DOMAIN_NAME := "mydomain.com".

Definition entryProps : DistributionStackProps.t :=
  {| DistributionStackProps.env := None;
     DistributionStackProps.bucketName := BUCKET_NAME;
     DistributionStackProps.domainName := DOMAIN_NAME |}.

Definition main : Completion unit * App :=
  let app := App_new in
  match DistributionStack_new app "CdkS3DistributionStack" entryProps with
  | (completion, Some stack) => (completion, (app ++ [stack])%list)
  | (completion, None) => (completion, app)
  end.

(** ** Reading the resource graph *)

(** The resource graph a call leaves behind: the children of the stack it
    registered, none when it registered no stack. *)
Definition graph (run : Completion unit * option Stack.t)
  : list (string * Construct) :=
  match snd run with
  | Some s => resources s
  | None => []
  end.

Definition countKind (k : ConstructKind) (l : list (string * Construct))
  : nat :=
  List.length (filter (fun n => ConstructKind_eqb (kindOf (snd n)) k) l).

Definition distributionOf (l : list (string * Construct))
  : option CloudFrontWebDistributionProps.t :=
  match tryFindChild "AppDistribution" l with
  | Some (CloudFrontWebDistributionC p) => Some p
  | _ => None
  end.

Definition certificateOf (l : list (string * Construct))
  : option DnsValidatedCertificateProps.t :=
  match tryFindChild "DistributionCertificate" l with
  | Some (DnsValidatedCertificateC p) => Some p
  | _ => None
  end.

Fixpoint alarmsOf (l : list (string * Construct)) : list AlarmProps.t :=
  match l with
  | [] => []
  | (_, AlarmC a) :: rest => a :: alarmsOf rest
  | _ :: rest => alarmsOf rest
  end.

(** The kinds of the resources declared, in declaration order, leaving
    out what the toolkit adds of its own and what was left unfinished. *)
Definition declaredKinds (l : list (string * Construct))
  : list ConstructKind :=
  filter
    (fun k => negb (ConstructKind_eqb k KAssetParameters ||
                    ConstructKind_eqb k KUnfinished))
    (map (fun n => kindOf (snd n)) l).

(** The region of a stack: the one its environment names, or else the
    region it is deployed to, known only at deployment. *)
Inductive RegionValue :=
| RegionName (name : string)
| DeploymentRegion.

Definition Stack_region (s : Stack.t) : RegionValue :=
  match Stack.env s with
  | Some e =>
      match Environment.region e with
      | Some r => RegionName r
      | None => DeploymentRegion
      end
  | None => DeploymentRegion
  end.

(** Where a certificate resides.  The toolkit documents the [region]
    property of a DNS-validated certificate as optional, defaulting to
    the region of the stack that declares it. *)
Definition certificateRegion (s : Stack.t)
  (c : DnsValidatedCertificateProps.t) : RegionValue :=
  match DnsValidatedCertificateProps.region c with
  | Some r => RegionName r
  | None => Stack_region s
  end.

(** The region the delivery network requires of its certificates, as the
    note in [buildCloudFrontDistribution] records. *)
Definition CLOUDFRONT_CERTIFICATE_REGION := "us-east-1".

(** The shape both alarms share: the comparison, the threshold, the number
    of evaluation periods and the treatment of missing data. *)
Definition thresholdAlarm (a : AlarmProps.t) (metricName : string)
  (threshold : Z) (missing : TreatMissingData) : Prop :=
  Metric.metricName (AlarmProps.metric a) = metricName /\
  AlarmProps.comparisonOperator a = GREATER_THAN_THRESHOLD /\
  AlarmProps.threshold a = threshold /\
  AlarmProps.evaluationPeriods a = 1 /\
  AlarmProps.treatMissingData a = missing.

(** A step leaves the stack it ran on in place: same id, same
    environment, the children it had, followed by those the step added. *)
Definition extends (this this' : Stack.t) : Prop :=
  Stack.id this' = Stack.id this /\
  Stack.env this' = Stack.env this /\
  exists added,
    resources this' = (resources this ++ added)%list.

(** No two children of the stack share an id. *)
Definition uniqueIds (this : Stack.t) : Prop :=
  NoDup (map fst (resources this)).

(** ** Inputs used as examples *)

(** An environment that names an account and a region other than the one
    the delivery network requires. *)
Definition irelandEnv : Environment.t :=
  {| Environment.account := Some "123456789012";
     Environment.region := Some "eu-west-1" |}.

Definition irelandProps : DistributionStackProps.t :=
  {| DistributionStackProps.env := Some irelandEnv;
     DistributionStackProps.bucketName := BUCKET_NAME;
     DistributionStackProps.domainName := DOMAIN_NAME |}.

(** The stack [super] hands to the constructor body for these props. *)
Definition irelandStack : Stack.t :=
  {| Stack.id := "CdkS3DistributionStack";
     Stack.env := Some irelandEnv;
     Stack.children := [] |}.

(** A step that only ever grows the stack, and a step that keeps the ids of
    the children distinct. *)
Definition growing {A} (m : Build A) : Prop :=
  forall this, extends this (snd (m this)).

Definition keepsUniqueIds {A} (m : Build A) : Prop :=
  forall this, uniqueIds this -> uniqueIds (snd (m this)).

(** An environment that names the region the delivery network requires,
    and a stack already registered under an app. *)
Definition virginiaProps : DistributionStackProps.t :=
  {| DistributionStackProps.env :=
       Some {| Environment.account := Some "210987654321";
               Environment.region := Some "us-east-1" |};
     DistributionStackProps.bucketName := BUCKET_NAME;
     DistributionStackProps.domainName := DOMAIN_NAME |}.

Definition appWithStack : App := [irelandStack].

(** * Properties *)

(** ** The construct tree *)


Lemma tryFindChild_absent (id : string) (l : list (string * Construct)) :
  existsb (String.eqb id) (map fst l) = false ->
  tryFindChild id l = None.
Proof.
  induction l as [|[i c] l IH]; [reflexivity|].
  cbn [map fst existsb tryFindChild]. intro H.
  apply orb_false_elim in H. destruct H as [E H].
  rewrite String.eqb_sym, E. apply IH, H.
Qed.

Lemma tryFindChild_None_not_In (id : string) (l : list (string * Construct)) :
  tryFindChild id l = None -> ~ In id (map fst l).
Proof.
  induction l as [|[i c] l IH]; [intros _ []|].
  cbn [map fst tryFindChild In].
  destruct (String.eqb i id) eqn:E; [discriminate|].
  intros H [Hi|Hin]; [|exact (IH H Hin)].
  subst i. rewrite String.eqb_refl in E. discriminate E.
Qed.

Lemma hasChild_false_find (id : string) (this : Stack.t) :
  hasChild id this = false -> tryFindChild id (resources this) = None.
Proof. apply tryFindChild_absent. Qed.

Lemma hasChild_false_not_In (id : string) (this : Stack.t) :
  hasChild id this = false -> ~ In id (map fst (resources this)).
Proof. intro H. apply tryFindChild_None_not_In, hasChild_false_find, H. Qed.

Lemma hasChild_addChild (id i : string) (c : Construct) (this : Stack.t) :
  hasChild id (addChild i c this) = hasChild id this || String.eqb id i.
Proof.
  unfold hasChild, addChild, resources. cbn [Stack.children].
  rewrite map_app, existsb_app. cbn [map fst existsb].
  rewrite orb_false_r. reflexivity.
Qed.

Lemma resources_addChild (i : string) (c : Construct) (this : Stack.t) :
  resources (addChild i c this) = (resources this ++ [(i, c)])%list.
Proof. reflexivity. Qed.

Lemma construct_fresh (id : string) (c : Construct) (this : Stack.t) :
  hasChild id this = false ->
  construct id c this = (Normal id, addChild id c this).
Proof.
  intro H. unfold construct, constructChecked. rewrite H. reflexivity.
Qed.

Lemma construct_taken (id : string) (c : Construct) (this : Stack.t) :
  hasChild id this = true ->
  construct id c this = (Throw (Error (DuplicateConstructId id)), this).
Proof.
  intro H. unfold construct, constructChecked. rewrite H. reflexivity.
Qed.

Lemma countKind_app (k : ConstructKind) (l l' : list (string * Construct)) :
  countKind k (l ++ l') = (countKind k l + countKind k l')%nat.
Proof. unfold countKind. rewrite filter_app, length_app. reflexivity. Qed.

Lemma NoDup_snoc (x : string) (l : list string) :
  NoDup l -> ~ In x l -> NoDup (l ++ [x]).
Proof.
  induction 1 as [|y l Hy Hl IH]; intro Hx.
  - constructor; [intros []|constructor].
  - cbn [app]. constructor.
    + intro Hin. apply in_app_or in Hin. destruct Hin as [Hin|[->|[]]].
      * exact (Hy Hin).
      * apply Hx. left. reflexivity.
    + apply IH. intro Hin. apply Hx. right. exact Hin.
Qed.

(** ** Steps grow the stack and keep its ids distinct *)

Lemma extends_refl (this : Stack.t) : extends this this.
Proof.
  repeat split. exists []. rewrite app_nil_r. reflexivity.
Qed.

Lemma extends_trans (a b c : Stack.t) :
  extends a b -> extends b c -> extends a c.
Proof.
  intros (Hi & He & l & Hl) (Hi' & He' & l' & Hl').
  split; [congruence|]. split; [congruence|].
  exists (l ++ l')%list. rewrite Hl', Hl, app_assoc. reflexivity.
Qed.

Lemma extends_addChild (i : string) (c : Construct) (this : Stack.t) :
  extends this (addChild i c this).
Proof. repeat split. exists [(i, c)]. reflexivity. Qed.

Lemma uniqueIds_addChild (i : string) (c : Construct) (this : Stack.t) :
  uniqueIds this -> ~ In i (map fst (resources this)) ->
  uniqueIds (addChild i c this).
Proof.
  unfold uniqueIds. intros Hu Hi.
  rewrite resources_addChild, map_app. apply NoDup_snoc; assumption.
Qed.

Create HintDb steps.

Lemma growing_ret {A} (a : A) : growing (ret a).
Proof. intro this. apply extends_refl. Qed.

Lemma growing_bind {A B} (m : Build A) (k : A -> Build B) :
  growing m -> (forall a, growing (k a)) -> growing (bind m k).
Proof.
  intros Hm Hk this. unfold bind. specialize (Hm this).
  destruct (m this) as [[a|e] this']; cbn [snd] in *; [|exact Hm].
  eapply extends_trans; [exact Hm|apply Hk].
Qed.

Lemma growing_constructChecked (id : string) (failure : option ToolkitError)
  (c : Construct) : growing (constructChecked id failure c).
Proof.
  intro this. unfold constructChecked.
  destruct (hasChild id this); [apply extends_refl|].
  destruct failure; apply extends_addChild.
Qed.

Lemma growing_fromLookup (id : string) (query : HostedZoneProviderProps.t) :
  growing (HostedZone_fromLookup id query).
Proof.
  intro this. unfold HostedZone_fromLookup.
  destruct (envSpecified (Stack.env this)); [|apply extends_refl].
  apply growing_constructChecked.
Qed.

Lemma growing_ensureAssetParameters : growing ensureAssetParameters.
Proof.
  intro this. unfold ensureAssetParameters.
  destruct (tryFindChild "AssetParameters" (resources this)) as [[]|];
    cbn [snd]; first [apply extends_refl | apply extends_addChild].
Qed.

Lemma keepsUniqueIds_ret {A} (a : A) : keepsUniqueIds (ret a).
Proof. intros this H. exact H. Qed.

Lemma keepsUniqueIds_bind {A B} (m : Build A) (k : A -> Build B) :
  keepsUniqueIds m -> (forall a, keepsUniqueIds (k a)) ->
  keepsUniqueIds (bind m k).
Proof.
  intros Hm Hk this Hu. unfold bind. specialize (Hm this Hu).
  destruct (m this) as [[a|e] this']; cbn [snd] in *; [|exact Hm].
  apply Hk, Hm.
Qed.

Lemma keepsUniqueIds_constructChecked (id : string)
  (failure : option ToolkitError) (c : Construct) :
  keepsUniqueIds (constructChecked id failure c).
Proof.
  intros this Hu. unfold constructChecked.
  destruct (hasChild id this) eqn:E; [exact Hu|].
  destruct failure; cbn [snd];
    apply uniqueIds_addChild; auto using hasChild_false_not_In.
Qed.

Lemma keepsUniqueIds_fromLookup (id : string)
  (query : HostedZoneProviderProps.t) :
  keepsUniqueIds (HostedZone_fromLookup id query).
Proof.
  intros this Hu. unfold HostedZone_fromLookup.
  destruct (envSpecified (Stack.env this)); [|exact Hu].
  apply keepsUniqueIds_constructChecked, Hu.
Qed.

Lemma keepsUniqueIds_ensureAssetParameters :
  keepsUniqueIds ensureAssetParameters.
Proof.
  intros this Hu. unfold ensureAssetParameters.
  destruct (tryFindChild "AssetParameters" (resources this)) as [[]|] eqn:E;
    cbn [snd]; try exact Hu.
  apply uniqueIds_addChild; [exact Hu|].
  apply tryFindChild_None_not_In, E.
Qed.

#[local] Hint Resolve growing_ret growing_bind growing_constructChecked
  growing_fromLookup growing_ensureAssetParameters
  keepsUniqueIds_ret keepsUniqueIds_bind keepsUniqueIds_constructChecked
  keepsUniqueIds_fromLookup keepsUniqueIds_ensureAssetParameters : steps.



(** ** Runs of the constructor *)

Lemma Stack_super_Normal (scope : App) (id : string)
  (props : option DistributionStackProps.t) (this : Stack.t) :
  Stack_super scope id props = Normal this ->
  this =
  {| Stack.id := sanitizeId id;
     Stack.env :=
       match props with
       | Some props => DistributionStackProps.env props
       | None => None
       end;
     Stack.children := [] |}.
Proof.
  unfold Stack_super.
  destruct (String.eqb (sanitizeId id) ""); [discriminate|].
  destruct (existsb _ scope); [discriminate|].
  destruct (validStackName (sanitizeId id)); [|discriminate].
  intro H. injection H as <-. reflexivity.
Qed.

Lemma isNormal_Normal {A} (c : Completion A) :
  isNormal c = true -> exists a, c = Normal a.
Proof. destruct c as [a|e]; [exists a; reflexivity|discriminate]. Qed.

(** What the constructor body does on a stack without children: it stops
    at the bucket when the bucket name is refused, at the zone lookup when
    the environment names no account or no region, and at the distribution
    otherwise. *)
Lemma constructorBody_fresh (id : string) (env : option Environment.t)
  (props : DistributionStackProps.t) :
  constructorBody props
    {| Stack.id := id; Stack.env := env; Stack.children := [] |} =
  if validBucketName (DistributionStackProps.bucketName props)
  then
    if envSpecified env
    then
      (Throw (Error NotOneDefaultBehavior),
       {| Stack.id := id; Stack.env := env;
          Stack.children :=
            [ ("AppBucket",
               BucketC
                 {| BucketProps.bucketName :=
                      DistributionStackProps.bucketName props |});
              ("HostedZone",
               HostedZoneLookupC
                 {| HostedZoneProviderProps.domainName :=
                      DistributionStackProps.domainName props;
                    HostedZoneProviderProps.privateZone := false |});
              ("DistributionCertificate",
               DnsValidatedCertificateC
                 {| DnsValidatedCertificateProps.domainName :=
                      DistributionStackProps.domainName props;
                    DnsValidatedCertificateProps.hostedZone := "HostedZone";
                    DnsValidatedCertificateProps.region := None |});
              ("AssetParameters", AssetParametersC);
              ("AppDistributionOAI", OriginAccessIdentityC);
              ("AppDistribution", UnfinishedC) ] |})
    else
      (Throw (Error EnvironmentNotSpecified),
       {| Stack.id := id; Stack.env := env;
          Stack.children :=
            [ ("AppBucket",
               BucketC
                 {| BucketProps.bucketName :=
                      DistributionStackProps.bucketName props |}) ] |})
  else
    (Throw
       (Error (InvalidBucketName (DistributionStackProps.bucketName props))),
     {| Stack.id := id; Stack.env := env;
        Stack.children := [ ("AppBucket", UnfinishedC) ] |}).
Proof.
  unfold constructorBody, buildAppBucket, Bucket_new, bind at 1,
    constructChecked at 1.
  cbn [BucketProps.bucketName hasChild resources Stack.children map existsb].
  destruct (validBucketName (DistributionStackProps.bucketName props));
    [|reflexivity].
  unfold lookupHostedZone, HostedZone_fromLookup, bind at 1.
  cbn [addChild Stack.env].
  destruct (envSpecified env); reflexivity.
Qed.

(** A call with props, once [super] has accepted the stack id. *)
Lemma DistributionStack_new_accepted (scope : App) (id : string)
  (props : DistributionStackProps.t) :
  isNormal (Stack_super scope id (Some props)) = true ->
  DistributionStack_new scope id props =
  let run :=
    constructorBody props
      {| Stack.id := sanitizeId id;
         Stack.env := DistributionStackProps.env props;
         Stack.children := [] |} in
  (fst run, Some (snd run)).
Proof.
  intro H. apply isNormal_Normal in H. destruct H as [this H].
  unfold DistributionStack_new, DistributionStack_call. rewrite H.
  apply Stack_super_Normal in H. subst this.
  cbv zeta. destruct (constructorBody props _). reflexivity.
Qed.

(** The constructor declares neither a distribution nor an alarm, whatever
    its arguments. *)
Lemma DistributionStack_new_graph_cases (scope : App) (id : string)
  (props : DistributionStackProps.t) :
  let g := graph (DistributionStack_new scope id props) in
  g = [] \/
  g = [("AppBucket", UnfinishedC)] \/
  g = [("AppBucket",
        BucketC
          {| BucketProps.bucketName :=
               DistributionStackProps.bucketName props |})] \/
  (fst (DistributionStack_new scope id props) =
   Throw (Error NotOneDefaultBehavior) /\
   g =
   [ ("AppBucket",
      BucketC
        {| BucketProps.bucketName :=
             DistributionStackProps.bucketName props |});
     ("HostedZone",
      HostedZoneLookupC
        {| HostedZoneProviderProps.domainName :=
             DistributionStackProps.domainName props;
           HostedZoneProviderProps.privateZone := false |});
     ("DistributionCertificate",
      DnsValidatedCertificateC
        {| DnsValidatedCertificateProps.domainName :=
             DistributionStackProps.domainName props;
           DnsValidatedCertificateProps.hostedZone := "HostedZone";
           DnsValidatedCertificateProps.region := None |});
     ("AssetParameters", AssetParametersC);
     ("AppDistributionOAI", OriginAccessIdentityC);
     ("AppDistribution", UnfinishedC) ]).
Proof.
  cbv zeta.
  destruct (isNormal (Stack_super scope id (Some props))) eqn:E.
  - rewrite (DistributionStack_new_accepted _ _ _ E). cbv zeta.
    rewrite constructorBody_fresh.
    destruct (validBucketName _); [|right; left; reflexivity].
    destruct (envSpecified _); [|right; right; left; reflexivity].
    right; right; right. split; reflexivity.
  - left. unfold DistributionStack_new, DistributionStack_call.
    destruct (Stack_super scope id (Some props)); [discriminate E|].
    reflexivity.
Qed.

(** ** The claims *)

(** C1, as the code has it: the properties handed to the distribution
    hold exactly one origin configuration with exactly one behavior, but
    that behavior is written with [isDefaultBehavior: false], so there is
    no default behavior at all; the toolkit refuses such a distribution,
    and no call of the constructor leaves a distribution declared. *)
Theorem sole_behavior_not_default :
  (forall (originAccessIdentity bucketSource : ConstructRef)
          (domainName : string) (certificate : ConstructRef),
     exists oc b,
       CloudFrontWebDistributionProps.originConfigs
         (distributionProps originAccessIdentity bucketSource domainName
            certificate) = [oc] /\
       SourceConfiguration.behaviors oc = [b] /\
       Behavior.isDefaultBehavior b = false /\
       defaultBehaviors
         (distributionProps originAccessIdentity bucketSource domainName
            certificate) = []) /\
  (forall (scope : App) (id : string) (props : DistributionStackProps.t),
     distributionOf (graph (DistributionStack_new scope id props)) = None) /\
  fst (DistributionStack_new App_new "CdkS3DistributionStack" irelandProps) =
  Throw (Error NotOneDefaultBehavior).
Proof.
  split; [|split].
  - intros. eexists. eexists. repeat split; reflexivity.
  - intros scope id props.
    destruct (DistributionStack_new_graph_cases scope id props)
      as [H|[H|[H|[_ H]]]]; rewrite H; reflexivity.
  - reflexivity.
Qed.

(** C2: on a stack where its two ids are free, [buildAlarms] declares
    exactly two alarms: the 4xx alarm uses the greater-than comparison
    with threshold 2 over 1 evaluation period, the 5xx alarm the
    greater-than comparison with threshold 1 over 1 evaluation period, and
    both treat missing data under the "missing" policy, the non-breach of
    the specification. *)
Theorem buildAlarms_two_alarms
  (this : Stack.t) (cloudFrontDistribution : ConstructRef) :
  hasChild "ClientHttpErrorAlarm" this = false ->
  hasChild "ServerHttpErrorAlarm" this = false ->
  exists a4 a5,
    fst (buildAlarms cloudFrontDistribution this) = Normal tt /\
    resources (snd (buildAlarms cloudFrontDistribution this)) =
    (resources this ++
       [("ClientHttpErrorAlarm", AlarmC a4);
        ("ServerHttpErrorAlarm", AlarmC a5)])%list /\
    thresholdAlarm a4 "4xxErrorRate" 2 MISSING /\
    thresholdAlarm a5 "5xxErrorRate" 1 MISSING.
Proof.
  intros H4 H5.
  exists (clientHttpErrorAlarm cloudFrontDistribution),
         (serverHttpErrorAlarm cloudFrontDistribution).
  unfold buildAlarms, Alarm_new, bind, ret.
  rewrite (construct_fresh _ _ _ H4), construct_fresh;
    [|rewrite hasChild_addChild, H5; reflexivity].
  cbn [fst snd]. repeat rewrite resources_addChild. rewrite <- app_assoc.
  unfold thresholdAlarm. repeat split; reflexivity.
Qed.

Lemma buildAlarms_two_alarms_witness :
  exists a4 a5,
    fst (buildAlarms "AppDistribution" irelandStack) = Normal tt /\
    resources (snd (buildAlarms "AppDistribution" irelandStack)) =
    (resources irelandStack ++
       [("ClientHttpErrorAlarm", AlarmC a4);
        ("ServerHttpErrorAlarm", AlarmC a5)])%list /\
    thresholdAlarm a4 "4xxErrorRate" 2 MISSING /\
    thresholdAlarm a5 "5xxErrorRate" 1 MISSING.
Proof.
  apply (@buildAlarms_two_alarms irelandStack "AppDistribution");
    reflexivity.
Defined.

(** C3, as the code has it: no call of the constructor leaves a
    distribution or an alarm in the resource graph.  With an environment
    that names account and region the graph holds one bucket, one
    hosted-zone reference, one certificate and one access identity, and
    the constructor stops at the distribution; at the entry point, which
    names no environment, it stops at the zone lookup with the bucket
    alone. *)
Theorem resource_graph_census :
  (forall (scope : App) (id : string) (props : DistributionStackProps.t),
     countKind KDistribution (graph (DistributionStack_new scope id props)) =
     0%nat /\
     countKind KAlarm (graph (DistributionStack_new scope id props)) =
     0%nat) /\
  (let run :=
     DistributionStack_new App_new "CdkS3DistributionStack" irelandProps in
   fst run = Throw (Error NotOneDefaultBehavior) /\
   countKind KBucket (graph run) = 1%nat /\
   countKind KHostedZone (graph run) = 1%nat /\
   countKind KCertificate (graph run) = 1%nat /\
   countKind KAccessIdentity (graph run) = 1%nat /\
   countKind KDistribution (graph run) = 0%nat /\
   countKind KAlarm (graph run) = 0%nat) /\
  (let run :=
     DistributionStack_new App_new "CdkS3DistributionStack" entryProps in
   fst run = Throw (Error EnvironmentNotSpecified) /\
   countKind KBucket (graph run) = 1%nat /\
   List.length (graph run) = 1%nat).
Proof.
  split; [|split].
  - intros scope id props.
    destruct (DistributionStack_new_graph_cases scope id props)
      as [H|[H|[H|[_ H]]]]; rewrite H; split; reflexivity.
  - cbv zeta. repeat split; reflexivity.
  - cbv zeta. repeat split; reflexivity.
Qed.






(** C7, as the code has it: the certificate is declared without a region,
    so it resides wherever the stack does.  Whenever the constructor gets
    as far as the certificate, which takes an environment naming an
    account and a region, the certificate resides in that region; for
    eu-west-1 that is not the region the delivery network requires. *)
Theorem certificate_region_follows_stack :
  (forall (scope : App) (id : string) (props : DistributionStackProps.t)
          (e : Environment.t) (a r : string),
     isNormal (Stack_super scope id (Some props)) = true ->
     validBucketName (DistributionStackProps.bucketName props) = true ->
     DistributionStackProps.env props = Some e ->
     Environment.account e = Some a ->
     Environment.region e = Some r ->
     exists s c,
       snd (DistributionStack_new scope id props) = Some s /\
       certificateOf (resources s) = Some c /\
       DnsValidatedCertificateProps.region c = None /\
       certificateRegion s c = Stack_region s /\
       certificateRegion s c = RegionName r) /\
  (exists s c,
     snd (DistributionStack_new App_new "CdkS3DistributionStack"
            irelandProps) = Some s /\
     certificateOf (resources s) = Some c /\
     certificateRegion s c = RegionName "eu-west-1" /\
     String.eqb "eu-west-1" CLOUDFRONT_CERTIFICATE_REGION = false).
Proof.
  split.
  - intros scope id props e a r Hs Hb He Ha Hr.
    rewrite (DistributionStack_new_accepted _ _ _ Hs). cbv zeta.
    rewrite constructorBody_fresh, Hb.
    assert (Hspec : envSpecified (DistributionStackProps.env props) = true)
      by (rewrite He; unfold envSpecified; rewrite Ha, Hr; reflexivity).
    rewrite Hspec. cbn [snd].
    eexists. eexists. split; [reflexivity|].
    split; [reflexivity|]. split; [reflexivity|].
    unfold certificateRegion, Stack_region.
    cbn [DnsValidatedCertificateProps.region Stack.env].
    rewrite He, Hr. split; reflexivity.
  - eexists. eexists. repeat split; reflexivity.
Qed.



(** C9, as the code has it: with an environment that names account and
    region the constructor runs bucket, hosted-zone lookup and
    certificate, in that order and each on the stack the step before
    left; the distribution step declares the access identity and throws,
    and the alarms step never runs. *)
Theorem constructor_straight_line :
  exists s1 s2 s3 s4,
    buildAppBucket BUCKET_NAME irelandStack = (Normal "AppBucket", s1) /\
    lookupHostedZone DOMAIN_NAME None s1 = (Normal "HostedZone", s2) /\
    buildDistributionCertificate DOMAIN_NAME "HostedZone" s2 =
    (Normal "DistributionCertificate", s3) /\
    buildCloudFrontDistribution "AppBucket" DOMAIN_NAME
      "DistributionCertificate" s3 =
    (Throw (Error NotOneDefaultBehavior), s4) /\
    DistributionStack_new App_new "CdkS3DistributionStack" irelandProps =
    (Throw (Error NotOneDefaultBehavior), Some s4) /\
    declaredKinds (resources s1) = [KBucket] /\
    declaredKinds (resources s2) = [KBucket; KHostedZone] /\
    declaredKinds (resources s3) = [KBucket; KHostedZone; KCertificate] /\
    declaredKinds (resources s4) =
    [KBucket; KHostedZone; KCertificate; KAccessIdentity] /\
    alarmsOf (resources s4) = [].
Proof.
  do 4 eexists. repeat split; reflexivity.
Qed.

(** C10, as stated, fails: the entry point's props and props that differ
    from them in the environment alone have the same bucket name and the
    same domain name, yet the constructor leaves different resource
    graphs. *)
Lemma resource_graph_depends_on_environment :
  DistributionStackProps.bucketName entryProps =
  DistributionStackProps.bucketName irelandProps /\
  DistributionStackProps.domainName entryProps =
  DistributionStackProps.domainName irelandProps /\
  graph (DistributionStack_new App_new "CdkS3DistributionStack" entryProps) <>
  graph (DistributionStack_new App_new "CdkS3DistributionStack" irelandProps).
Proof.
  split; [reflexivity|]. split; [reflexivity|]. discriminate.
Qed.

(** C10, amended: two runs of the constructor with equal bucket name and
    equal domain name, whose environments both name an account and a
    region or both fail to, and whose stack ids their apps accept,
    complete in the same way and leave resource graphs identical in every
    declared attribute. *)
Theorem resource_graph_deterministic
  (scope1 scope2 : App) (id1 id2 : string)
  (props1 props2 : DistributionStackProps.t) :
  DistributionStackProps.bucketName props1 =
  DistributionStackProps.bucketName props2 ->
  DistributionStackProps.domainName props1 =
  DistributionStackProps.domainName props2 ->
  envSpecified (DistributionStackProps.env props1) =
  envSpecified (DistributionStackProps.env props2) ->
  isNormal (Stack_super scope1 id1 (Some props1)) = true ->
  isNormal (Stack_super scope2 id2 (Some props2)) = true ->
  fst (DistributionStack_new scope1 id1 props1) =
  fst (DistributionStack_new scope2 id2 props2) /\
  graph (DistributionStack_new scope1 id1 props1) =
  graph (DistributionStack_new scope2 id2 props2).
Proof.
  intros Hb Hd He H1 H2.
  rewrite (DistributionStack_new_accepted _ _ _ H1),
    (DistributionStack_new_accepted _ _ _ H2).
  cbv zeta. rewrite !constructorBody_fresh, Hb, Hd, He.
  destruct (validBucketName (DistributionStackProps.bucketName props2));
    [|split; reflexivity].
  destruct (envSpecified (DistributionStackProps.env props2));
    split; reflexivity.
Qed.

Lemma resource_graph_deterministic_witness :
  fst (DistributionStack_new App_new "CdkS3DistributionStack" irelandProps) =
  fst (DistributionStack_new appWithStack "Second" virginiaProps) /\
  graph (DistributionStack_new App_new "CdkS3DistributionStack" irelandProps) =
  graph (DistributionStack_new appWithStack "Second" virginiaProps).
Proof.
  apply (@resource_graph_deterministic
           App_new appWithStack "CdkS3DistributionStack" "Second"
           irelandProps virginiaProps); reflexivity.
Defined.

(** ** Further properties: how the steps fail *)

(** X1: no call of the constructor completes: with props or without, on
    any app and under any id, it throws. *)
Theorem constructor_never_completes
  (scope : App) (id : string) (props : option DistributionStackProps.t) :
  exists e, fst (DistributionStack_call scope id props) = Throw e.
Proof.
  destruct props as [props|].
  - change (DistributionStack_call scope id (Some props))
      with (DistributionStack_new scope id props).
    destruct (isNormal (Stack_super scope id (Some props))) eqn:E.
    + rewrite (DistributionStack_new_accepted _ _ _ E). cbv zeta.
      rewrite constructorBody_fresh.
      destruct (validBucketName _); [|eexists; reflexivity].
      destruct (envSpecified _); eexists; reflexivity.
    + unfold DistributionStack_new, DistributionStack_call.
      destruct (Stack_super scope id (Some props)) as [this|e];
        [discriminate E|].
      exists e. reflexivity.
  - unfold DistributionStack_call.
    destruct (Stack_super scope id None) as [this|e]; eexists; reflexivity.
Qed.

(** X2: when the environment in the props names no account or no region,
    as at the entry point, the constructor stops at the zone lookup: it
    throws for the missing environment and leaves the bucket as the only
    resource, given a bucket name the toolkit accepts and a stack id the
    app accepts. *)
Theorem constructor_stops_at_zone_lookup
  (scope : App) (id : string) (props : DistributionStackProps.t) :
  isNormal (Stack_super scope id (Some props)) = true ->
  validBucketName (DistributionStackProps.bucketName props) = true ->
  envSpecified (DistributionStackProps.env props) = false ->
  fst (DistributionStack_new scope id props) =
  Throw (Error EnvironmentNotSpecified) /\
  graph (DistributionStack_new scope id props) =
  [("AppBucket",
    BucketC
      {| BucketProps.bucketName :=
           DistributionStackProps.bucketName props |})].
Proof.
  intros Hs Hb He.
  rewrite (DistributionStack_new_accepted _ _ _ Hs). cbv zeta.
  rewrite constructorBody_fresh, Hb, He. split; reflexivity.
Qed.

Lemma constructor_stops_at_zone_lookup_witness :
  fst (DistributionStack_new App_new "CdkS3DistributionStack" entryProps) =
  Throw (Error EnvironmentNotSpecified) /\
  graph (DistributionStack_new App_new "CdkS3DistributionStack" entryProps) =
  [("AppBucket",
    BucketC
      {| BucketProps.bucketName :=
           DistributionStackProps.bucketName entryProps |})].
Proof.
  apply (@constructor_stops_at_zone_lookup
           App_new "CdkS3DistributionStack" entryProps); reflexivity.
Defined.

(** X3: [buildCloudFrontDistribution] never returns a reference: on any
    stack and for any arguments it throws, and the stack holds as many
    distributions afterwards as before. *)
Theorem buildCloudFrontDistribution_never_returns
  (this : Stack.t) (bucketSource : ConstructRef) (domainName : string)
  (certificate : ConstructRef) :
  let run :=
    buildCloudFrontDistribution bucketSource domainName certificate this in
  (exists e, fst run = Throw e) /\
  countKind KDistribution (resources (snd run)) =
  countKind KDistribution (resources this).
Proof.
  cbv zeta.
  unfold buildCloudFrontDistribution, OriginAccessIdentity_new, bind.
  destruct (hasChild "AppDistributionOAI" this) eqn:Ho.
  - rewrite (construct_taken _ _ _ Ho). split; [eexists|]; reflexivity.
  - rewrite (construct_fresh _ _ _ Ho).
    unfold CloudFrontWebDistribution_new, constructChecked.
    change (List.length (defaultBehaviors
              (distributionProps "AppDistributionOAI" bucketSource
                 domainName certificate)) =? 1)%nat with false.
    destruct (hasChild "AppDistribution" _); cbn [fst snd];
      (split; [eexists; reflexivity|]);
      rewrite ?resources_addChild, ?countKind_app;
      change (countKind KDistribution
                [("AppDistributionOAI", OriginAccessIdentityC)]) with 0%nat;
      change (countKind KDistribution
                [("AppDistribution", UnfinishedC)]) with 0%nat;
      rewrite ?Nat.add_0_r; reflexivity.
Qed.

(** X4: [buildAlarms] completes exactly when both its ids are free.  When
    the first is taken it throws and declares nothing; when only the
    second is taken it throws after having declared the first alarm. *)
Theorem buildAlarms_duplicate_ids
  (this : Stack.t) (cloudFrontDistribution : ConstructRef) :
  let run := buildAlarms cloudFrontDistribution this in
  if hasChild "ClientHttpErrorAlarm" this
  then run =
       (Throw (Error (DuplicateConstructId "ClientHttpErrorAlarm")), this)
  else if hasChild "ServerHttpErrorAlarm" this
  then run =
       (Throw (Error (DuplicateConstructId "ServerHttpErrorAlarm")),
        addChild "ClientHttpErrorAlarm"
          (AlarmC (clientHttpErrorAlarm cloudFrontDistribution)) this)
  else fst run = Normal tt.
Proof.
  cbv zeta. unfold buildAlarms, Alarm_new, bind.
  destruct (hasChild "ClientHttpErrorAlarm" this) eqn:H4.
  - rewrite (construct_taken _ _ _ H4). reflexivity.
  - rewrite (construct_fresh _ _ _ H4).
    destruct (hasChild "ServerHttpErrorAlarm" this) eqn:H5.
    + rewrite construct_taken; [reflexivity|].
      rewrite hasChild_addChild, H5. reflexivity.
    + rewrite construct_fresh; [reflexivity|].
      rewrite hasChild_addChild, H5. reflexivity.
Qed.






(** X8: with an environment that names account and region, an accepted
    bucket name and an accepted stack id, the constructor stops at the
    distribution.  It leaves the bucket under the given name, a public
    zone lookup for the given domain, a certificate for that domain
    validated in that zone, and the access identity; no distribution and
    no alarm. *)
Theorem constructor_stops_at_distribution
  (scope : App) (id : string) (props : DistributionStackProps.t) :
  isNormal (Stack_super scope id (Some props)) = true ->
  validBucketName (DistributionStackProps.bucketName props) = true ->
  envSpecified (DistributionStackProps.env props) = true ->
  let run := DistributionStack_new scope id props in
  fst run = Throw (Error NotOneDefaultBehavior) /\
  tryFindChild "AppBucket" (graph run) =
  Some (BucketC
          {| BucketProps.bucketName :=
               DistributionStackProps.bucketName props |}) /\
  tryFindChild "HostedZone" (graph run) =
  Some (HostedZoneLookupC
          {| HostedZoneProviderProps.domainName :=
               DistributionStackProps.domainName props;
             HostedZoneProviderProps.privateZone := false |}) /\
  certificateOf (graph run) =
  Some {| DnsValidatedCertificateProps.domainName :=
            DistributionStackProps.domainName props;
          DnsValidatedCertificateProps.hostedZone := "HostedZone";
          DnsValidatedCertificateProps.region := None |} /\
  tryFindChild "AppDistributionOAI" (graph run) = Some OriginAccessIdentityC /\
  declaredKinds (graph run) =
  [KBucket; KHostedZone; KCertificate; KAccessIdentity] /\
  distributionOf (graph run) = None /\
  alarmsOf (graph run) = [].
Proof.
  intros Hs Hb He. cbv zeta.
  rewrite (DistributionStack_new_accepted _ _ _ Hs). cbv zeta.
  rewrite constructorBody_fresh, Hb, He. repeat split; reflexivity.
Qed.

Lemma constructor_stops_at_distribution_witness :
  let run :=
    DistributionStack_new appWithStack "Second" virginiaProps in
  fst run = Throw (Error NotOneDefaultBehavior) /\
  tryFindChild "AppBucket" (graph run) =
  Some (BucketC
          {| BucketProps.bucketName :=
               DistributionStackProps.bucketName virginiaProps |}) /\
  tryFindChild "HostedZone" (graph run) =
  Some (HostedZoneLookupC
          {| HostedZoneProviderProps.domainName :=
               DistributionStackProps.domainName virginiaProps;
             HostedZoneProviderProps.privateZone := false |}) /\
  certificateOf (graph run) =
  Some {| DnsValidatedCertificateProps.domainName :=
            DistributionStackProps.domainName virginiaProps;
          DnsValidatedCertificateProps.hostedZone := "HostedZone";
          DnsValidatedCertificateProps.region := None |} /\
  tryFindChild "AppDistributionOAI" (graph run) = Some OriginAccessIdentityC /\
  declaredKinds (graph run) =
  [KBucket; KHostedZone; KCertificate; KAccessIdentity] /\
  distributionOf (graph run) = None /\
  alarmsOf (graph run) = [].
Proof.
  apply (@constructor_stops_at_distribution appWithStack "Second"
           virginiaProps); reflexivity.
Defined.
